(** * main.py: a retrieve/generate graph declared on a state-graph builder

    The module is a straight-line script: four imports, one class
    statement, one constructor call, five method calls on the builder and
    one compile call.  It is embedded statement by statement in a state
    and exception monad over the module namespace, the store of mutable
    objects and a log of the operations performed.  Names are resolved as
    Python does at module level: the module's globals first, then the
    builtins scope. *)

From stdpp Require Import gmap strings list fin_maps.

(** ** Values, exceptions, objects *)

#[warnings="-register-all"]
Inductive value :=
| VStr (s : string)                         (* a str literal *)
| VImported (module name : string)          (* bound by from-import *)
| VSubscript (base : value) (args : list value)   (* base[args] *)
| VClass (name : string) (bases : list value)
         (annotations : list (string * value))    (* made by a class statement *)
| VFunction (name : string)                 (* a function object *)
| VRef (l : nat)                            (* reference into the store *)
| VBoundMethod (l : nat) (attr : string).   (* obj.attr of a stored object *)

Inductive exn :=
| NameError (name : string)
| AttributeError (attr : string)
| TypeError (what : string)
| LibraryError (what : string).

(** Modelled from the spec: the state-graph builder of the external
    library (langgraph.graph.StateGraph) is not part of the repository.
    The spec describes it as a builder that accepts a state-shape
    declaration, registers named processing steps and registers directed
    edges between named steps or the start/end sentinels. *)
Record builder := Builder {
  b_schema : value;
  b_nodes : list (string * value);
  b_edges : list (value * value)
}.

(** Modelled from the spec: the executable graph object that the compile
    step produces; it is kept as the declaration it was compiled from. *)
Record compiled := Compiled { c_source : builder }.

Inductive object :=
| OBuilder (b : builder)
| OCompiled (c : compiled).

(** The library interface the module calls into.  Every entry point may
    raise, so that the module is studied for every behaviour of the
    library and not only for one. *)
Record Library := {
  lib_StateGraph : list value -> exn + builder;
  lib_add_node : builder -> list value -> exn + builder;
  lib_add_edge : builder -> list value -> exn + builder;
  lib_compile : builder -> list value -> exn + compiled
}.

(** ** Operations logged during evaluation *)

Inductive event :=
| EvImport (module : string) (names : list string)
| EvClass (name : string)
| EvCall (callee : value) (args : list value) (outcome : exn + value).

Record state := State {
  globals : gmap string value;
  store : list object;
  log : list event
}.

Definition init_state : state := State ∅ [] [].

(** ** The evaluation monad: state is kept when an exception is raised *)

Definition M (A : Type) : Type := state -> state * (exn + A).

Definition ret {A} (a : A) : M A := fun s => (s, inr a).

Definition raise {A} (e : exn) : M A := fun s => (s, inl e).

Definition bind {A B} (m : M A) (k : A -> M B) : M B :=
  fun s => match m s with
           | (s', inl e) => (s', inl e)
           | (s', inr a) => k a s'
           end.

Notation "'do' x <- m ; k" := (bind m (fun x => k))
  (at level 10, x name, m at level 99, k at level 200).
Notation "m ;; k" := (bind m (fun _ => k))
  (at level 100, k at level 200, right associativity).

Definition emit (ev : event) : M unit :=
  fun s => (State (globals s) (store s) (log s ++ [ev]), inr tt).

Definition store_name (x : string) (v : value) : M unit :=
  fun s => (State (<[x := v]> (globals s)) (store s) (log s), inr tt).

Definition alloc (o : object) : M value :=
  fun s => (State (globals s) (store s ++ [o]) (log s), inr (VRef (length (store s)))).

Definition read_object (l : nat) : M (option object) :=
  fun s => (s, inr (store s !! l)).

Definition write_object (l : nat) (o : object) : M unit :=
  fun s => (State (globals s) (<[l := o]> (store s)) (log s), inr tt).

Definition builder_methods : list string := ["add_node"; "add_edge"; "compile"].

Definition is_name (x y : string) : bool := String.eqb x y.

(** The object a from-import binds.  The imported libraries are not part
    of the repository; their objects are opaque, except the two sentinels
    of langgraph.graph, which are the strs "__start__" and "__end__" and
    therefore live in the same space as the names of the steps. *)
Definition imported (module name : string) : value :=
  if is_name module "langgraph.graph" && is_name name "START" then VStr "__start__"
  else if is_name module "langgraph.graph" && is_name name "END" then VStr "__end__"
  else VImported module name.

(** A read-only scope: the names bound besides the interpreter's own
    machinery.  The module only ever looks names up in it; the import
    system and the class builder of the interpreter are taken to be in
    place and are not looked up here. *)
Definition scope : Type := string -> option value.

Definition empty_scope : scope := fun _ => None.

Section Evaluation.

Variable L : Library.

(** The builtins scope: the names bound before the module body runs. *)
Variable builtins : scope.

(** LOAD_NAME at module level: globals, then builtins, else NameError. *)
Definition load_name (x : string) : M value :=
  fun s => match globals s !! x with
           | Some v => (s, inr v)
           | None => match builtins x with
                     | Some v => (s, inr v)
                     | None => (s, inl (NameError x))
                     end
           end.

(** [from module import n1, n2, ...] binds each name in the globals; the
    modules named are taken to be installed and importable. *)
Definition import_from (module : string) (names : list string) : M unit :=
  fun s => (State (foldl (fun g n => <[n := imported module n]> g) (globals s) names)
                  (store s)
                  (log s ++ [EvImport module names]),
            inr tt).

Definition subscript (base : value) (args : list value) : M value :=
  ret (VSubscript base args).

(** Attribute access; the only objects with attributes are builders. *)
Definition get_attr (v : value) (attr : string) : M value :=
  match v with
  | VRef l =>
      do o <- read_object l;
      match o with
      | Some (OBuilder _) =>
          if existsb (is_name attr) builder_methods
          then ret (VBoundMethod l attr)
          else raise (AttributeError attr)
      | _ => raise (AttributeError attr)
      end
  | _ => raise (AttributeError attr)
  end.

(** A method of the builder mutates the builder in place and returns it. *)
Definition call_builder_method (l : nat) (attr : string) (b : builder)
           (args : list value) : M (exn + value) :=
  if is_name attr "add_node" then
    match lib_add_node L b args with
    | inl e => ret (inl e)
    | inr b' => write_object l (OBuilder b') ;; ret (inr (VRef l))
    end
  else if is_name attr "add_edge" then
    match lib_add_edge L b args with
    | inl e => ret (inl e)
    | inr b' => write_object l (OBuilder b') ;; ret (inr (VRef l))
    end
  else if is_name attr "compile" then
    match lib_compile L b args with
    | inl e => ret (inl e)
    | inr c => do g <- alloc (OCompiled c); ret (inr g)
    end
  else ret (inl (AttributeError attr)).

Definition dispatch (callee : value) (args : list value) : M (exn + value) :=
  match callee with
  | VImported module name =>
      if is_name module "langgraph.graph" && is_name name "StateGraph" then
        match lib_StateGraph L args with
        | inl e => ret (inl e)
        | inr b => do w <- alloc (OBuilder b); ret (inr w)
        end
      else ret (inl (TypeError "unsupported call"))
  | VBoundMethod l attr =>
      do o <- read_object l;
      match o with
      | Some (OBuilder b) => call_builder_method l attr b args
      | _ => ret (inl (TypeError "unsupported call"))
      end
  | _ => ret (inl (TypeError "unsupported call"))
  end.

(** A call: the callee and the arguments are already evaluated; the
    outcome is logged and an exception, if any, is raised to the caller. *)
Definition call (callee : value) (args : list value) : M value :=
  do r <- dispatch callee args;
  emit (EvCall callee args r) ;;
  match r with
  | inl e => raise e
  | inr v => ret v
  end.

(** *** The statements of main.py, in source order *)

(* from typing import Annotated, Sequence, TypedDict *)
Definition import_typing : M unit :=
  import_from "typing" ["Annotated"; "Sequence"; "TypedDict"].

(* from langchain_core.messages import BaseMessage *)
Definition import_messages : M unit :=
  import_from "langchain_core.messages" ["BaseMessage"].

(* from langgraph.graph import StateGraph, START, END *)
Definition import_graph : M unit :=
  import_from "langgraph.graph" ["StateGraph"; "START"; "END"].

(* from langgraph.graph.message import add_messages *)
Definition import_add_messages : M unit :=
  import_from "langgraph.graph.message" ["add_messages"].

(* class AgentState(TypedDict):
       messages: Annotated[Sequence[BaseMessage], add_messages] *)
Definition class_AgentState : M unit :=
  do base <- load_name "TypedDict";
  do ann <- load_name "Annotated";
  do sq <- load_name "Sequence";
  do bm <- load_name "BaseMessage";
  do seq_bm <- subscript sq [bm];
  do red <- load_name "add_messages";
  do ty <- subscript ann [seq_bm; red];
  emit (EvClass "AgentState") ;;
  store_name "AgentState" (VClass "AgentState" [base] [("messages", ty)]).

(* workflow = StateGraph(AgentState) *)
Definition assign_workflow : M unit :=
  do f <- load_name "StateGraph";
  do a <- load_name "AgentState";
  do w <- call f [a];
  store_name "workflow" w.

(* workflow.add_node("retrieve", retrieve_node) *)
Definition add_node_retrieve : M unit :=
  do w <- load_name "workflow";
  do m <- get_attr w "add_node";
  do f <- load_name "retrieve_node";
  do _ <- call m [VStr "retrieve"; f];
  ret tt.

(* workflow.add_node("generate", generate_node) *)
Definition add_node_generate : M unit :=
  do w <- load_name "workflow";
  do m <- get_attr w "add_node";
  do f <- load_name "generate_node";
  do _ <- call m [VStr "generate"; f];
  ret tt.

(* workflow.add_edge(START, "retrieve") *)
Definition add_edge_start_retrieve : M unit :=
  do w <- load_name "workflow";
  do m <- get_attr w "add_edge";
  do a <- load_name "START";
  do _ <- call m [a; VStr "retrieve"];
  ret tt.

(* workflow.add_edge("retrieve", "generate") *)
Definition add_edge_retrieve_generate : M unit :=
  do w <- load_name "workflow";
  do m <- get_attr w "add_edge";
  do _ <- call m [VStr "retrieve"; VStr "generate"];
  ret tt.

(* workflow.add_edge("generate", END) *)
Definition add_edge_generate_end : M unit :=
  do w <- load_name "workflow";
  do m <- get_attr w "add_edge";
  do b <- load_name "END";
  do _ <- call m [VStr "generate"; b];
  ret tt.

(* graph = workflow.compile() *)
Definition assign_graph : M unit :=
  do w <- load_name "workflow";
  do m <- get_attr w "compile";
  do g <- call m [];
  store_name "graph" g.

(** The sections of the file, as its comments name them. *)

Definition imports : M unit :=
  import_typing ;; import_messages ;; import_graph ;; import_add_messages.

(* # Add nodes *)
Definition add_nodes : M unit :=
  add_node_retrieve ;; add_node_generate.

(* # Define the flow *)
Definition define_flow : M unit :=
  add_edge_start_retrieve ;; add_edge_retrieve_generate ;; add_edge_generate_end.

Definition main : M unit :=
  imports ;;
  class_AgentState ;;     (* # Define agent state *)
  assign_workflow ;;      (* # Create a graph *)
  add_nodes ;;
  define_flow ;;
  assign_graph.           (* # Compile the graph *)

(** Evaluating the module: the body runs on an empty namespace. *)
Definition run_main : state * (exn + unit) := main init_state.

End Evaluation.

(** ** The library as the spec describes it *)

(** Modelled from the spec: the builder constructor of the external
    library, which "accepts a state-shape declaration"; a new builder has
    no step and no edge registered. *)
Definition spec_StateGraph (args : list value) : exn + builder :=
  match args with
  | [schema] => inr (Builder schema [] [])
  | _ => inl (TypeError "StateGraph")
  end.

(** Modelled from the spec: the external library's "method to register
    named processing steps". *)
Definition spec_add_node (b : builder) (args : list value) : exn + builder :=
  match args with
  | [VStr name; action] =>
      inr (Builder (b_schema b) (b_nodes b ++ [(name, action)]) (b_edges b))
  | _ => inl (TypeError "add_node")
  end.

(** Modelled from the spec: the external library's "method to register
    directed edges between named steps (including fixed start/end
    sentinels)". *)
Definition spec_add_edge (b : builder) (args : list value) : exn + builder :=
  match args with
  | [src; dst] =>
      inr (Builder (b_schema b) (b_nodes b) (b_edges b ++ [(src, dst)]))
  | _ => inl (TypeError "add_edge")
  end.

(** Modelled from the spec: the external library's "compile step
    producing an executable graph object". *)
Definition spec_compile (b : builder) (args : list value) : exn + compiled :=
  match args with
  | [] => inr (Compiled b)
  | _ => inl (TypeError "compile")
  end.

Definition spec_lib : Library :=
  {| lib_StateGraph := spec_StateGraph;
     lib_add_node := spec_add_node;
     lib_add_edge := spec_add_edge;
     lib_compile := spec_compile |}.

(** ** Vocabulary for the statements *)

Definition TypedDict : value := VImported "typing" "TypedDict".
Definition Annotated : value := VImported "typing" "Annotated".
Definition Sequence : value := VImported "typing" "Sequence".
Definition BaseMessage : value := VImported "langchain_core.messages" "BaseMessage".
Definition StateGraph : value := VImported "langgraph.graph" "StateGraph".
Definition START : value := VStr "__start__".
Definition END : value := VStr "__end__".
Definition add_messages : value := VImported "langgraph.graph.message" "add_messages".

(** The class object that the class statement of main.py creates. *)
Definition AgentState : value :=
  VClass "AgentState" [TypedDict]
    [("messages",
      VSubscript Annotated [VSubscript Sequence [BaseMessage]; add_messages])].

Definition class_fields (c : value) : list (string * value) :=
  match c with
  | VClass _ _ annotations => annotations
  | _ => []
  end.

(** The builder that the name [workflow] refers to, read through the store. *)
Definition workflow_builder (s : state) : option builder :=
  match globals s !! "workflow" with
  | Some (VRef l) =>
      match store s !! l with
      | Some (OBuilder b) => Some b
      | _ => None
      end
  | _ => None
  end.

(** Consecutive edges: each edge starts where the one before it ended. *)
Fixpoint chain_from (src : value) (es : list (value * value)) (dst : value) : Prop :=
  match es with
  | [] => src = dst
  | (a, b) :: rest => a = src /\ chain_from b rest dst
  end.

(** A scope that supplies the two callbacks main.py leaves undefined. *)
Definition supplied (f g : value) : scope :=
  fun x => if is_name x "retrieve_node" then Some f
           else if is_name x "generate_node" then Some g
           else None.

Definition retrieve_fn : value := VFunction "retrieve_node".
Definition generate_fn : value := VFunction "generate_node".

(** The module completed with two functions of its own. *)
Definition completed : scope := supplied retrieve_fn generate_fn.

(** The declaration the completed module builds. *)
Definition completed_builder : builder :=
  Builder AgentState
    [("retrieve", retrieve_fn); ("generate", generate_fn)]
    [(START, VStr "retrieve");
     (VStr "retrieve", VStr "generate");
     (VStr "generate", END)].

(** ** Evaluation in closed form

    The module is straight-line code, so its evaluation is decided by the
    answers of the seven library calls and of the two lookups that leave
    the module's own namespace.  [outcome] lists the cases in evaluation
    order; [run_main_outcome] below proves it equal to [run_main]. *)

Definition globals_after_imports : gmap string value :=
  <["add_messages" := add_messages]>
  (<["END" := END]>
  (<["START" := START]>
  (<["StateGraph" := StateGraph]>
  (<["BaseMessage" := BaseMessage]>
  (<["TypedDict" := TypedDict]>
  (<["Sequence" := Sequence]>
  (<["Annotated" := Annotated]> ∅))))))).

Definition globals_after_class : gmap string value :=
  <["AgentState" := AgentState]> globals_after_imports.

Definition globals_after_workflow : gmap string value :=
  <["workflow" := VRef 0]> globals_after_class.

Definition globals_after_graph : gmap string value :=
  <["graph" := VRef 1]> globals_after_workflow.

Definition log_after_imports : list event :=
  [EvImport "typing" ["Annotated"; "Sequence"; "TypedDict"];
   EvImport "langchain_core.messages" ["BaseMessage"];
   EvImport "langgraph.graph" ["StateGraph"; "START"; "END"];
   EvImport "langgraph.graph.message" ["add_messages"]].

Definition log_after_class : list event :=
  log_after_imports ++ [EvClass "AgentState"].

Definition logged (s : state) (callee : value) (args : list value)
           (r : exn + value) : state :=
  State (globals s) (store s) (log s ++ [EvCall callee args r]).

(** One method call on the builder at location 0 of a one-object store. *)
Definition method_step (op : list value -> exn + builder) (s : state)
           (attr : string) (args : list value)
           (k : builder -> state -> state * (exn + unit)) : state * (exn + unit) :=
  match op args with
  | inl e => (logged s (VBoundMethod 0 attr) args (inl e), inl e)
  | inr b' =>
      k b' (logged (State (globals s) [OBuilder b'] (log s))
                   (VBoundMethod 0 attr) args (inr (VRef 0)))
  end.

Definition done (_ : builder) (s : state) : state * (exn + unit) := (s, inr tt).

Definition outcome_assign_graph (L : Library) (b : builder) (s : state) :
  state * (exn + unit) :=
  match lib_compile L b [] with
  | inl e => (logged s (VBoundMethod 0 "compile") [] (inl e), inl e)
  | inr c =>
      (State globals_after_graph [OBuilder b; OCompiled c]
             (log s ++ [EvCall (VBoundMethod 0 "compile") [] (inr (VRef 1))]),
       inr tt)
  end.

Definition outcome_define_flow (L : Library) (b : builder) (s : state)
           (k : builder -> state -> state * (exn + unit)) : state * (exn + unit) :=
  method_step (lib_add_edge L b) s "add_edge" [START; VStr "retrieve"] (fun b1 s1 =>
  method_step (lib_add_edge L b1) s1 "add_edge" [VStr "retrieve"; VStr "generate"] (fun b2 s2 =>
  method_step (lib_add_edge L b2) s2 "add_edge" [VStr "generate"; END] k)).

Definition outcome_add_nodes (L : Library) (B : scope) (b : builder) (s : state)
           (k : builder -> state -> state * (exn + unit)) : state * (exn + unit) :=
  match B "retrieve_node" with
  | None => (s, inl (NameError "retrieve_node"))
  | Some f =>
      method_step (lib_add_node L b) s "add_node" [VStr "retrieve"; f] (fun b1 s1 =>
      match B "generate_node" with
      | None => (s1, inl (NameError "generate_node"))
      | Some g =>
          method_step (lib_add_node L b1) s1 "add_node" [VStr "generate"; g] k
      end)
  end.

Definition outcome (L : Library) (B : scope) : state * (exn + unit) :=
  match lib_StateGraph L [AgentState] with
  | inl e =>
      (logged (State globals_after_class [] log_after_class)
              StateGraph [AgentState] (inl e), inl e)
  | inr b0 =>
      outcome_add_nodes L B b0
        (logged (State globals_after_workflow [OBuilder b0] log_after_class)
                StateGraph [AgentState] (inr (VRef 0)))
        (fun b2 s2 => outcome_define_flow L b2 s2 (outcome_assign_graph L))
  end.

(** ** Reading the declaration back from a state or a log *)

(** The argument lists of the successful calls of one builder method. *)
Definition registered (attr : string) (lg : list event) : list (list value) :=
  flat_map (fun ev =>
              match ev with
              | EvCall (VBoundMethod _ a) args (inr _) =>
                  if is_name a attr then [args] else []
              | _ => []
              end) lg.

Definition is_sentinel (v : value) : Prop := v = START \/ v = END.

(** An edge endpoint is a sentinel or the name of a registered step. *)
Definition endpoint_ok (names : list string) (v : value) : Prop :=
  is_sentinel v \/ exists n, v = VStr n /\ In n names.

Definition edges_closed (b : builder) : Prop :=
  Forall (fun e => endpoint_ok (map fst (b_nodes b)) e.1 /\
                   endpoint_ok (map fst (b_nodes b)) e.2)
         (b_edges b).

(** Along a log: each successful add_edge names only steps that an earlier
    successful add_node registered. *)
Fixpoint edges_follow_nodes (names : list string) (lg : list event) : Prop :=
  match lg with
  | [] => True
  | EvCall (VBoundMethod _ a) args (inr _) :: rest =>
      if is_name a "add_node" then
        match args with
        | VStr n :: _ => edges_follow_nodes (names ++ [n]) rest
        | _ => edges_follow_nodes names rest
        end
      else if is_name a "add_edge" then
        match args with
        | [x; y] => endpoint_ok names x /\ endpoint_ok names y /\
                    edges_follow_nodes names rest
        | _ => edges_follow_nodes names rest
        end
      else edges_follow_nodes names rest
  | _ :: rest => edges_follow_nodes names rest
  end.

(** An event without the outcome of the call. *)
Inductive operation :=
| OpImport (module : string) (names : list string)
| OpClass (name : string)
| OpCall (callee : value) (args : list value).

Definition operation_of (ev : event) : operation :=
  match ev with
  | EvImport m ns => OpImport m ns
  | EvClass n => OpClass n
  | EvCall c args _ => OpCall c args
  end.

(** The operations of main.py in source order, for callbacks [f] and [g]. *)
Definition declared_operations (f g : value) : list operation :=
  [OpImport "typing" ["Annotated"; "Sequence"; "TypedDict"];
   OpImport "langchain_core.messages" ["BaseMessage"];
   OpImport "langgraph.graph" ["StateGraph"; "START"; "END"];
   OpImport "langgraph.graph.message" ["add_messages"];
   OpClass "AgentState";
   OpCall StateGraph [AgentState];
   OpCall (VBoundMethod 0 "add_node") [VStr "retrieve"; f];
   OpCall (VBoundMethod 0 "add_node") [VStr "generate"; g];
   OpCall (VBoundMethod 0 "add_edge") [START; VStr "retrieve"];
   OpCall (VBoundMethod 0 "add_edge") [VStr "retrieve"; VStr "generate"];
   OpCall (VBoundMethod 0 "add_edge") [VStr "generate"; END];
   OpCall (VBoundMethod 0 "compile") []].

(** The names main.py binds at module level. *)
Definition module_names : gset string :=
  list_to_set ["Annotated"; "Sequence"; "TypedDict"; "BaseMessage";
               "StateGraph"; "START"; "END"; "add_messages";
               "AgentState"; "workflow"; "graph"].

(** A call that only reaches the graph library: the builder constructor
    or a method of the builder the module created. *)
Definition library_call (ev : event) : Prop :=
  match ev with
  | EvCall c _ _ => c = StateGraph \/ exists m, c = VBoundMethod 0 m /\ In m builder_methods
  | _ => True
  end.

Definition failed_call (ev : event) : Prop :=
  match ev with
  | EvCall _ _ (inl _) => True
  | _ => False
  end.

(** [Annotated[T, m1, ...]] read back as its type and its metadata. *)
Definition annotated_parts (t : value) : option (value * list value) :=
  match t with
  | VSubscript (VImported m n) (ty :: metadata) =>
      if is_name m "typing" && is_name n "Annotated"
      then Some (ty, metadata) else None
  | _ => None
  end.

(** ** Exceptions raised by the library *)

Definition quiet (lg : list event) : Prop :=
  Forall (fun ev => ~ failed_call ev) lg.

(** A computation that handles no exception of a call: from a log without
    failed call it either ends with such a log, or it ends by raising the
    exception of the call it logged last. *)
Definition propagating {A} (m : M A) : Prop :=
  forall s, quiet (log s) ->
    match m s with
    | (s', inr _) => quiet (log s')
    | (s', inl e) =>
        quiet (log s') \/
        exists lg c a, log s' = lg ++ [EvCall c a (inl e)] /\ quiet lg
    end.

(** A library that fails at compile time, otherwise as the spec describes. *)
Definition failing_compile : Library :=
  {| lib_StateGraph := spec_StateGraph;
     lib_add_node := spec_add_node;
     lib_add_edge := spec_add_edge;
     lib_compile := fun _ _ => inl (LibraryError "compile") |}.

(** ** Scopes and libraries for the other ways evaluation can go *)

(** A scope that supplies the first callback only. *)
Definition only_retrieve : scope :=
  fun x => if is_name x "retrieve_node" then Some retrieve_fn else None.

(** A library whose builder constructor raises. *)
Definition failing_constructor : Library :=
  {| lib_StateGraph := fun _ => inl (LibraryError "StateGraph");
     lib_add_node := spec_add_node;
     lib_add_edge := spec_add_edge;
     lib_compile := spec_compile |}.

(** The library accepts the whole declaration: each call is made on the
    builder as the call before it left it, and the compile call on the
    builder [b] after the fifth registration gives [c]. *)
Definition accepts (L : Library) (f g : value) (b : builder) (c : compiled) : Prop :=
  exists b0 b1 b2 b3 b4,
    lib_StateGraph L [AgentState] = inr b0 /\
    lib_add_node L b0 [VStr "retrieve"; f] = inr b1 /\
    lib_add_node L b1 [VStr "generate"; g] = inr b2 /\
    lib_add_edge L b2 [START; VStr "retrieve"] = inr b3 /\
    lib_add_edge L b3 [VStr "retrieve"; VStr "generate"] = inr b4 /\
    lib_add_edge L b4 [VStr "generate"; END] = inr b /\
    lib_compile L b [] = inr c.

(** ** Proof automation *)

Ltac eval_lookup :=
  match goal with
  | |- context [@lookup string value (gmap string value) _ ?k ?m] =>
      let r := eval vm_compute in (m !! k) in
      replace (m !! k) with r by (vm_compute; reflexivity)
  end.

Ltac unfold_prims :=
  unfold call, dispatch, call_builder_method, get_attr, subscript, load_name,
    import_from, emit, store_name, alloc, read_object, write_object, bind,
    ret, raise.

Ltac unfold_vocab :=
  unfold AgentState, TypedDict, Annotated, Sequence, BaseMessage, StateGraph,
    START, END, add_messages.

Ltac case_answer :=
  match goal with
  | |- context [match lib_StateGraph ?L ?a with _ => _ end] =>
      destruct (lib_StateGraph L a)
  | |- context [match lib_add_node ?L ?b ?a with _ => _ end] =>
      destruct (lib_add_node L b a)
  | |- context [match lib_add_edge ?L ?b ?a with _ => _ end] =>
      destruct (lib_add_edge L b a)
  | |- context [match lib_compile ?L ?b ?a with _ => _ end] =>
      destruct (lib_compile L b a)
  | S : scope |- context [match ?S' ?x with _ => _ end] =>
      constr_eq S S'; destruct (S x)
  end.

Ltac run_statement := repeat (cbn; first [eval_lookup | case_answer]).

Ltac red_forms :=
  cbv beta iota zeta delta [logged method_step done globals store log].

Ltac case_both :=
  match goal with
  | |- context [match ?t with inl _ => _ | inr _ => _ end] =>
      destruct t; red_forms; try reflexivity
  | |- context [match ?t with Some _ => _ | None => _ end] =>
      destruct t; red_forms; try reflexivity
  end.

Ltac red_leaf :=
  cbv beta iota zeta delta [fst snd logged done globals store log].

(** One goal per way the evaluation can end. *)
Ltac explore_outcome :=
  unfold outcome, outcome_add_nodes, outcome_define_flow, outcome_assign_graph,
    method_step;
  repeat match goal with
         | |- context [match ?t with inl _ => _ | inr _ => _ end] =>
             destruct t eqn:?
         | |- context [match ?t with Some _ => _ | None => _ end] =>
             destruct t eqn:?
         end;
  red_leaf.

Ltac unfold_outcome :=
  unfold outcome, outcome_add_nodes, outcome_define_flow, outcome_assign_graph,
    method_step, done, logged.

(** * Properties *)

(** ** Each section of the file, evaluated on the state it runs in *)

Lemma imports_spec :
  imports init_state = (State globals_after_imports [] log_after_imports, inr tt).
Proof. reflexivity. Qed.

Lemma class_AgentState_spec B :
  class_AgentState B (State globals_after_imports [] log_after_imports)
  = (State globals_after_class [] log_after_class, inr tt).
Proof.
  unfold class_AgentState. unfold_prims. run_statement. reflexivity.
Qed.

Lemma assign_workflow_spec L B lg :
  assign_workflow L B (State globals_after_class [] lg)
  = match lib_StateGraph L [AgentState] with
    | inl e =>
        (logged (State globals_after_class [] lg) StateGraph [AgentState] (inl e),
         inl e)
    | inr b0 =>
        (logged (State globals_after_workflow [OBuilder b0] lg)
                StateGraph [AgentState] (inr (VRef 0)), inr tt)
    end.
Proof.
  unfold assign_workflow, logged. unfold_prims. unfold_vocab.
  run_statement; reflexivity.
Qed.

Lemma add_nodes_spec L B b lg :
  add_nodes L B (State globals_after_workflow [OBuilder b] lg)
  = outcome_add_nodes L B b (State globals_after_workflow [OBuilder b] lg) done.
Proof.
  unfold outcome_add_nodes, method_step, done, logged. unfold_vocab.
  unfold add_nodes, add_node_retrieve, add_node_generate. unfold_prims.
  run_statement; reflexivity.
Qed.

Lemma define_flow_spec L B b lg :
  define_flow L B (State globals_after_workflow [OBuilder b] lg)
  = outcome_define_flow L b (State globals_after_workflow [OBuilder b] lg) done.
Proof.
  unfold outcome_define_flow, method_step, done, logged. unfold_vocab.
  unfold define_flow, add_edge_start_retrieve, add_edge_retrieve_generate,
    add_edge_generate_end. unfold_prims.
  run_statement; reflexivity.
Qed.

Lemma assign_graph_spec L B b lg :
  assign_graph L B (State globals_after_workflow [OBuilder b] lg)
  = outcome_assign_graph L b (State globals_after_workflow [OBuilder b] lg).
Proof.
  unfold outcome_assign_graph, logged. unfold_vocab.
  unfold assign_graph. unfold_prims.
  run_statement; reflexivity.
Qed.

(** The module evaluates to its closed form, whatever the library answers
    and whatever the builtins scope binds. *)
Lemma run_main_outcome (L : Library) (B : scope) : run_main L B = outcome L B.
Proof.
  unfold run_main, main, outcome.
  unfold bind at 1. rewrite imports_spec.
  unfold bind at 1. rewrite class_AgentState_spec.
  unfold bind at 1. rewrite assign_workflow_spec.
  case_both.
  unfold bind at 1. rewrite add_nodes_spec. unfold outcome_add_nodes. red_forms.
  repeat case_both.
  unfold bind at 1. rewrite define_flow_spec. unfold outcome_define_flow. red_forms.
  repeat case_both.
  rewrite assign_graph_spec. reflexivity.
Qed.

(** ** The declared graph *)

(** With the library as the spec describes it and the two callbacks
    supplied, evaluation runs to the end in this state. *)
Lemma run_main_spec_lib (B : scope) (f g : value) :
  B "retrieve_node" = Some f ->
  B "generate_node" = Some g ->
  let b := Builder AgentState
             [("retrieve", f); ("generate", g)]
             [(START, VStr "retrieve");
              (VStr "retrieve", VStr "generate");
              (VStr "generate", END)] in
  run_main spec_lib B =
  (State globals_after_graph [OBuilder b; OCompiled (Compiled b)]
     (log_after_class ++
      [EvCall StateGraph [AgentState] (inr (VRef 0));
       EvCall (VBoundMethod 0 "add_node") [VStr "retrieve"; f] (inr (VRef 0));
       EvCall (VBoundMethod 0 "add_node") [VStr "generate"; g] (inr (VRef 0));
       EvCall (VBoundMethod 0 "add_edge") [START; VStr "retrieve"] (inr (VRef 0));
       EvCall (VBoundMethod 0 "add_edge") [VStr "retrieve"; VStr "generate"]
              (inr (VRef 0));
       EvCall (VBoundMethod 0 "add_edge") [VStr "generate"; END] (inr (VRef 0));
       EvCall (VBoundMethod 0 "compile") [] (inr (VRef 1))]),
   inr tt).
Proof.
  intros Hf Hg b. rewrite run_main_outcome. unfold_outcome.
  cbn. rewrite Hf. cbn. rewrite Hg. reflexivity.
Qed.

(** As given, with the library as the spec describes it, evaluation stops
    at the first reference to [retrieve_node], in this state. *)
Lemma run_main_as_given (B : scope) :
  B "retrieve_node" = None ->
  run_main spec_lib B =
  (State globals_after_workflow [OBuilder (Builder AgentState [] [])]
     (log_after_class ++ [EvCall StateGraph [AgentState] (inr (VRef 0))]),
   inl (NameError "retrieve_node")).
Proof.
  intros Hf. rewrite run_main_outcome. unfold_outcome.
  cbn. rewrite Hf. reflexivity.
Qed.

Lemma workflow_builder_after_workflow (b : builder) (objs : list object)
      (lg : list event) :
  workflow_builder (State globals_after_workflow (OBuilder b :: objs) lg) = Some b.
Proof. reflexivity. Qed.

Lemma workflow_builder_after_graph (b : builder) (objs : list object)
      (lg : list event) :
  workflow_builder (State globals_after_graph (OBuilder b :: objs) lg) = Some b.
Proof. reflexivity. Qed.

(** C1: with the library as the spec describes it, the module declares
    exactly the two nodes "retrieve" and "generate", in this order, and
    exactly the three edges START -> "retrieve", "retrieve" -> "generate",
    "generate" -> END, which form one chain from START to END; the calls
    logged are these two registrations and three connections and no
    other. *)
Theorem declared_graph_is_linear_chain (B : scope) (f g : value) :
  B "retrieve_node" = Some f ->
  B "generate_node" = Some g ->
  exists b,
    workflow_builder (run_main spec_lib B).1 = Some b /\
    b_nodes b = [("retrieve", f); ("generate", g)] /\
    b_edges b = [(START, VStr "retrieve");
                 (VStr "retrieve", VStr "generate");
                 (VStr "generate", END)] /\
    chain_from START (b_edges b) END /\
    registered "add_node" (log (run_main spec_lib B).1)
      = [[VStr "retrieve"; f]; [VStr "generate"; g]] /\
    registered "add_edge" (log (run_main spec_lib B).1)
      = [[START; VStr "retrieve"];
         [VStr "retrieve"; VStr "generate"];
         [VStr "generate"; END]].
Proof.
  intros Hf Hg. rewrite (run_main_spec_lib B f g Hf Hg).
  eexists. split; [apply workflow_builder_after_graph |].
  repeat split.
Qed.

Lemma declared_graph_is_linear_chain_witness :
  completed "retrieve_node" = Some retrieve_fn /\
  completed "generate_node" = Some generate_fn /\
  exists b,
    workflow_builder (run_main spec_lib completed).1 = Some b /\
    b_nodes b = [("retrieve", retrieve_fn); ("generate", generate_fn)] /\
    b_edges b = [(START, VStr "retrieve");
                 (VStr "retrieve", VStr "generate");
                 (VStr "generate", END)] /\
    chain_from START (b_edges b) END /\
    registered "add_node" (log (run_main spec_lib completed).1)
      = [[VStr "retrieve"; retrieve_fn]; [VStr "generate"; generate_fn]] /\
    registered "add_edge" (log (run_main spec_lib completed).1)
      = [[START; VStr "retrieve"];
         [VStr "retrieve"; VStr "generate"];
         [VStr "generate"; END]].
Proof.
  split; [reflexivity | split; [reflexivity |]].
  apply (declared_graph_is_linear_chain completed); reflexivity.
Defined.

(** ** The shape of every final state *)

(** Whatever the library answers, the module namespace ends in one of
    three shapes: before [workflow] is bound, after it, after [graph]. *)
Lemma run_main_globals (L : Library) (B : scope) :
  globals (run_main L B).1 = globals_after_class \/
  globals (run_main L B).1 = globals_after_workflow \/
  globals (run_main L B).1 = globals_after_graph.
Proof.
  rewrite run_main_outcome. explore_outcome; auto.
Qed.

(** The module binds neither of the two callback names. *)
Lemma callbacks_never_bound (L : Library) (B : scope) :
  globals (run_main L B).1 !! "retrieve_node" = None /\
  globals (run_main L B).1 !! "generate_node" = None.
Proof.
  destruct (run_main_globals L B) as [-> | [-> | ->]]; split; reflexivity.
Qed.

(** C2: [retrieve_node] and [generate_node] are bound by no statement of
    the module; when the scope the module starts from does not bind
    [retrieve_node] either, evaluation cannot end normally and [graph] is
    never bound, whatever the library does; and once the builder has been
    constructed, the failure is the NameError raised by the first
    reference to [retrieve_node]. *)
Theorem undefined_callback_stops_evaluation (L : Library) (B : scope) :
  B "retrieve_node" = None ->
  globals (run_main L B).1 !! "retrieve_node" = None /\
  globals (run_main L B).1 !! "generate_node" = None /\
  (run_main L B).2 <> inr tt /\
  globals (run_main L B).1 !! "graph" = None /\
  Forall (fun o => forall c, o <> OCompiled c) (store (run_main L B).1) /\
  (forall b, lib_StateGraph L [AgentState] = inr b ->
             (run_main L B).2 = inl (NameError "retrieve_node")).
Proof.
  intros Hf.
  destruct (callbacks_never_bound L B) as [Hr Hg].
  split; [exact Hr | split; [exact Hg |]].
  rewrite run_main_outcome. explore_outcome; try congruence.
  - repeat split; try discriminate; try reflexivity. constructor.
  - repeat split; try discriminate; try reflexivity.
    repeat constructor. discriminate.
Qed.

Lemma undefined_callback_stops_evaluation_witness :
  empty_scope "retrieve_node" = None /\
  globals (run_main spec_lib empty_scope).1 !! "retrieve_node" = None /\
  globals (run_main spec_lib empty_scope).1 !! "generate_node" = None /\
  (run_main spec_lib empty_scope).2 <> inr tt /\
  globals (run_main spec_lib empty_scope).1 !! "graph" = None /\
  Forall (fun o => forall c, o <> OCompiled c)
         (store (run_main spec_lib empty_scope).1) /\
  (forall b, lib_StateGraph spec_lib [AgentState] = inr b ->
             (run_main spec_lib empty_scope).2 = inl (NameError "retrieve_node")).
Proof.
  split; [reflexivity |].
  apply (undefined_callback_stops_evaluation spec_lib empty_scope).
  reflexivity.
Defined.

(** ** Failure at the first node registration *)

(** Whatever builder the constructor returned, it is untouched when the
    first reference to [retrieve_node] fails. *)
Lemma failure_leaves_builder_untouched (L : Library) (B : scope) (b0 : builder) :
  B "retrieve_node" = None ->
  lib_StateGraph L [AgentState] = inr b0 ->
  run_main L B =
  (State globals_after_workflow [OBuilder b0]
     (log_after_class ++ [EvCall StateGraph [AgentState] (inr (VRef 0))]),
   inl (NameError "retrieve_node")).
Proof.
  intros Hf Hb. rewrite run_main_outcome. unfold outcome, outcome_add_nodes.
  rewrite Hb, Hf. reflexivity.
Qed.

(** C8: when evaluation fails at the first node registration because
    [retrieve_node] is unbound, the builder exists and holds no node and
    no edge, no registration call has been made, and [graph] is unbound. *)
Theorem failure_leaves_builder_empty (B : scope) :
  B "retrieve_node" = None ->
  (run_main spec_lib B).2 = inl (NameError "retrieve_node") /\
  (exists b,
      workflow_builder (run_main spec_lib B).1 = Some b /\
      store (run_main spec_lib B).1 = [OBuilder b] /\
      b_nodes b = [] /\ b_edges b = []) /\
  registered "add_node" (log (run_main spec_lib B).1) = [] /\
  registered "add_edge" (log (run_main spec_lib B).1) = [] /\
  globals (run_main spec_lib B).1 !! "graph" = None.
Proof.
  intros Hf. rewrite (run_main_as_given B Hf).
  split; [reflexivity |].
  split; [eexists; split; [apply workflow_builder_after_workflow |]; repeat split |].
  repeat split.
Qed.

Lemma failure_leaves_builder_empty_witness :
  empty_scope "retrieve_node" = None /\
  (run_main spec_lib empty_scope).2 = inl (NameError "retrieve_node") /\
  (exists b,
      workflow_builder (run_main spec_lib empty_scope).1 = Some b /\
      store (run_main spec_lib empty_scope).1 = [OBuilder b] /\
      b_nodes b = [] /\ b_edges b = []) /\
  registered "add_node" (log (run_main spec_lib empty_scope).1) = [] /\
  registered "add_edge" (log (run_main spec_lib empty_scope).1) = [] /\
  globals (run_main spec_lib empty_scope).1 !! "graph" = None.
Proof.
  split; [reflexivity |].
  apply (failure_leaves_builder_empty empty_scope). reflexivity.
Defined.

(** ** The state shape *)

Lemma AgentState_bound_after_class : globals_after_class !! "AgentState" = Some AgentState.
Proof. reflexivity. Qed.

Lemma AgentState_bound_after_workflow :
  globals_after_workflow !! "AgentState" = Some AgentState.
Proof. reflexivity. Qed.

Lemma AgentState_bound_after_graph :
  globals_after_graph !! "AgentState" = Some AgentState.
Proof. reflexivity. Qed.

(** C4: whatever happens later in the evaluation, the name [AgentState]
    is bound to a class with exactly one field, [messages], whose type is
    Sequence[BaseMessage], annotated with the single metadata
    [add_messages]. *)
Theorem AgentState_has_single_messages_field (L : Library) (B : scope) :
  exists c t,
    globals (run_main L B).1 !! "AgentState" = Some c /\
    class_fields c = [("messages", t)] /\
    annotated_parts t = Some (VSubscript Sequence [BaseMessage], [add_messages]).
Proof.
  exists AgentState. eexists. split; [| split; reflexivity].
  destruct (run_main_globals L B) as [-> | [-> | ->]].
  - exact AgentState_bound_after_class.
  - exact AgentState_bound_after_workflow.
  - exact AgentState_bound_after_graph.
Qed.

(** ** Well-formedness of the declared graph *)

(** The sentinels are strs: a step could be given the name of one. *)
Lemma sentinel_names (n : string) :
  is_sentinel (VStr n) <-> n = "__start__" \/ n = "__end__".
Proof.
  unfold is_sentinel, START, END. split.
  - intros [[= ->] | [= ->]]; auto.
  - intros [-> | ->]; auto.
Qed.

Lemma retrieve_is_not_sentinel : ~ is_sentinel (VStr "retrieve").
Proof. rewrite sentinel_names. intros [H | H]; discriminate H. Qed.

Lemma generate_is_not_sentinel : ~ is_sentinel (VStr "generate").
Proof. rewrite sentinel_names. intros [H | H]; discriminate H. Qed.

Lemma sentinel_START (names : list string) : endpoint_ok names START.
Proof. left. left. reflexivity. Qed.

Lemma sentinel_END (names : list string) : endpoint_ok names END.
Proof. left. right. reflexivity. Qed.

Lemma registered_endpoint (names : list string) (n : string) :
  In n names -> endpoint_ok names (VStr n).
Proof. intros Hn. right. exists n. split; [reflexivity | exact Hn]. Qed.

Create HintDb endpoints.
#[local] Hint Resolve sentinel_START sentinel_END registered_endpoint : endpoints.

Ltac endpoint := solve [auto 3 with endpoints | apply registered_endpoint; cbn; tauto].

(** The three possible final states with the library as the spec
    describes it, according to which callbacks the scope supplies. *)
Lemma run_main_generate_missing (B : scope) (f : value) :
  B "retrieve_node" = Some f ->
  B "generate_node" = None ->
  run_main spec_lib B =
  (State globals_after_workflow
     [OBuilder (Builder AgentState [("retrieve", f)] [])]
     (log_after_class ++
      [EvCall StateGraph [AgentState] (inr (VRef 0));
       EvCall (VBoundMethod 0 "add_node") [VStr "retrieve"; f] (inr (VRef 0))]),
   inl (NameError "generate_node")).
Proof.
  intros Hf Hg. rewrite run_main_outcome. unfold_outcome.
  cbn. rewrite Hf. cbn. rewrite Hg. reflexivity.
Qed.

(** C9: with the library as the spec describes it and whatever the scope
    supplies, every edge of the builder joins sentinels or registered
    steps, each edge was registered after the steps it names, and the
    registered step names are pairwise distinct and differ from the
    sentinels, which are the strs "__start__" and "__end__". *)
Theorem declared_graph_well_formed (B : scope) (b : builder) :
  workflow_builder (run_main spec_lib B).1 = Some b ->
  edges_closed b /\
  edges_follow_nodes [] (log (run_main spec_lib B).1) /\
  NoDup (map fst (b_nodes b)) /\
  Forall (fun n => ~ is_sentinel (VStr n)) (map fst (b_nodes b)).
Proof.
  destruct (B "retrieve_node") as [f |] eqn:Hf;
    [destruct (B "generate_node") as [g |] eqn:Hg |].
  - rewrite (run_main_spec_lib B f g Hf Hg). cbv beta iota zeta delta [fst snd].
    rewrite workflow_builder_after_graph. intros [= <-].
    split; [| split; [| split]].
    + unfold edges_closed. cbn.
      repeat (constructor; [split; cbn; endpoint |]). constructor.
    + cbn. repeat split; endpoint.
    + cbn. apply (bool_decide_unpack _). vm_compute. exact I.
    + cbn. constructor; [exact retrieve_is_not_sentinel |].
      constructor; [exact generate_is_not_sentinel | constructor].
  - rewrite (run_main_generate_missing B f Hf Hg).
    cbv beta iota zeta delta [fst snd].
    rewrite workflow_builder_after_workflow. intros [= <-].
    split; [| split; [| split]].
    + unfold edges_closed. cbn. constructor.
    + cbn. exact I.
    + cbn. apply (bool_decide_unpack _). vm_compute. exact I.
    + cbn. constructor; [exact retrieve_is_not_sentinel | constructor].
  - rewrite (run_main_as_given B Hf). cbv beta iota zeta delta [fst snd].
    rewrite workflow_builder_after_workflow. intros [= <-].
    split; [| split; [| split]].
    + unfold edges_closed. cbn. constructor.
    + cbn. exact I.
    + cbn. constructor.
    + cbn. constructor.
Qed.

Lemma declared_graph_well_formed_witness :
  workflow_builder (run_main spec_lib completed).1 = Some completed_builder /\
  edges_closed completed_builder /\
  edges_follow_nodes [] (log (run_main spec_lib completed).1) /\
  NoDup (map fst (b_nodes completed_builder)) /\
  Forall (fun n => ~ is_sentinel (VStr n)) (map fst (b_nodes completed_builder)).
Proof.
  assert (Hb : workflow_builder (run_main spec_lib completed).1
               = Some completed_builder)
    by (vm_compute; reflexivity).
  split; [exact Hb |].
  exact (declared_graph_well_formed completed completed_builder Hb).
Defined.

(** ** The order of the operations *)

(** When both callbacks are bound and the library accepts the whole
    declaration, evaluation runs to the end in this state: every call is
    made on the builder as the call before it left it. *)
Lemma accepted_run (L : Library) (B : scope) (f g : value)
      (b : builder) (c : compiled) :
  B "retrieve_node" = Some f ->
  B "generate_node" = Some g ->
  accepts L f g b c ->
  run_main L B =
  (State globals_after_graph [OBuilder b; OCompiled c]
     (log_after_class ++
      [EvCall StateGraph [AgentState] (inr (VRef 0));
       EvCall (VBoundMethod 0 "add_node") [VStr "retrieve"; f] (inr (VRef 0));
       EvCall (VBoundMethod 0 "add_node") [VStr "generate"; g] (inr (VRef 0));
       EvCall (VBoundMethod 0 "add_edge") [START; VStr "retrieve"] (inr (VRef 0));
       EvCall (VBoundMethod 0 "add_edge") [VStr "retrieve"; VStr "generate"]
              (inr (VRef 0));
       EvCall (VBoundMethod 0 "add_edge") [VStr "generate"; END] (inr (VRef 0));
       EvCall (VBoundMethod 0 "compile") [] (inr (VRef 1))]),
   inr tt).
Proof.
  intros Hf Hg (b0 & b1 & b2 & b3 & b4 & H0 & H1 & H2 & H3 & H4 & H5 & Hc).
  rewrite run_main_outcome.
  unfold outcome, outcome_add_nodes, outcome_define_flow, outcome_assign_graph,
    method_step.
  rewrite H0, Hf, H1, Hg, H2, H3, H4, H5, Hc. reflexivity.
Qed.

(** Conversely, evaluation ends normally only if both callbacks are bound
    and the library accepted every call, made on the builder as threaded
    through the calls before. *)
Lemma normal_run_accepted (L : Library) (B : scope) :
  (run_main L B).2 = inr tt ->
  exists f g b c,
    B "retrieve_node" = Some f /\ B "generate_node" = Some g /\ accepts L f g b c.
Proof.
  rewrite run_main_outcome. explore_outcome; intros [=].
  eexists _, _, _, _. split; [reflexivity |]. split; [reflexivity |].
  unfold accepts. eexists _, _, _, _, _. repeat split; eassumption.
Qed.

(** However far evaluation gets, what it has done is an initial segment
    of the declared operations. *)
Lemma operations_are_a_prefix (L : Library) (B : scope) :
  exists f g,
    map operation_of (log (run_main L B).1) `prefix_of` declared_operations f g.
Proof.
  exists (default retrieve_fn (B "retrieve_node")),
         (default generate_fn (B "generate_node")).
  rewrite run_main_outcome. explore_outcome; eexists; reflexivity.
Qed.

(** C3 (as amended): the operations of the module are performed in source
    order as far as evaluation gets: whatever the library answers and
    whatever the scope binds, they are an initial segment of the imports,
    the definition of AgentState, the construction of the builder, the two
    node registrations, the three edge registrations and the compile call.
    When both callbacks are bound and the library accepts each call, made
    on the builder as the call before it left it, all of them are
    performed and no other, the store holds that builder and the graph
    compiled from it, and [graph] is bound to the compiled object; and
    evaluation ends normally in no other case. *)
Theorem operations_in_source_order (L : Library) (B : scope) :
  (exists f g,
      map operation_of (log (run_main L B).1) `prefix_of` declared_operations f g) /\
  (forall f g b c,
      B "retrieve_node" = Some f ->
      B "generate_node" = Some g ->
      accepts L f g b c ->
      (run_main L B).2 = inr tt /\
      map operation_of (log (run_main L B).1) = declared_operations f g /\
      store (run_main L B).1 = [OBuilder b; OCompiled c] /\
      workflow_builder (run_main L B).1 = Some b /\
      globals (run_main L B).1 !! "graph" = Some (VRef 1)) /\
  ((run_main L B).2 = inr tt ->
   exists f g b c,
     B "retrieve_node" = Some f /\ B "generate_node" = Some g /\ accepts L f g b c).
Proof.
  split; [apply operations_are_a_prefix |].
  split; [| apply normal_run_accepted].
  intros f g b c Hf Hg Hacc. rewrite (accepted_run L B f g b c Hf Hg Hacc).
  repeat split.
Qed.

Lemma completed_is_accepted :
  accepts spec_lib retrieve_fn generate_fn completed_builder (Compiled completed_builder).
Proof.
  unfold accepts. eexists _, _, _, _, _.
  repeat (split; [reflexivity |]). reflexivity.
Qed.

Lemma operations_in_source_order_witness :
  completed "retrieve_node" = Some retrieve_fn /\
  completed "generate_node" = Some generate_fn /\
  accepts spec_lib retrieve_fn generate_fn completed_builder (Compiled completed_builder) /\
  (run_main spec_lib completed).2 = inr tt /\
  map operation_of (log (run_main spec_lib completed).1)
    = declared_operations retrieve_fn generate_fn /\
  store (run_main spec_lib completed).1
    = [OBuilder completed_builder; OCompiled (Compiled completed_builder)] /\
  workflow_builder (run_main spec_lib completed).1 = Some completed_builder /\
  globals (run_main spec_lib completed).1 !! "graph" = Some (VRef 1).
Proof.
  assert (Hf : completed "retrieve_node" = Some retrieve_fn) by reflexivity.
  assert (Hg : completed "generate_node" = Some generate_fn) by reflexivity.
  split; [exact Hf | split; [exact Hg | split; [exact completed_is_accepted |]]].
  exact (proj1 (proj2 (operations_in_source_order spec_lib completed))
           retrieve_fn generate_fn completed_builder (Compiled completed_builder)
           Hf Hg completed_is_accepted).
Defined.

(** As given, with neither callback defined, evaluation stops after the
    construction of the builder: no node and no edge is registered, the
    compile call is never made, and [graph] is not bound. *)
Lemma as_given_compile_is_never_reached :
  (run_main spec_lib empty_scope).2 = inl (NameError "retrieve_node") /\
  registered "add_node" (log (run_main spec_lib empty_scope).1) = [] /\
  registered "add_edge" (log (run_main spec_lib empty_scope).1) = [] /\
  ~ In (OpCall (VBoundMethod 0 "compile") [])
       (map operation_of (log (run_main spec_lib empty_scope).1)) /\
  (forall f g, map operation_of (log (run_main spec_lib empty_scope).1)
               <> declared_operations f g) /\
  globals (run_main spec_lib empty_scope).1 !! "graph" = None.
Proof.
  rewrite (run_main_as_given empty_scope eq_refl).
  cbv beta iota zeta delta [fst snd].
  split; [reflexivity |]. split; [reflexivity |]. split; [reflexivity |].
  split; [| split; [| reflexivity]].
  - cbn. intros H.
    repeat (destruct H as [H | H]; [discriminate H |]). exact H.
  - intros f g H. cbn in H. discriminate H.
Qed.

(** ** What evaluation touches *)

Lemma names_after_class : dom globals_after_class ⊆ module_names.
Proof. apply (bool_decide_unpack _). vm_compute. exact I. Qed.

Lemma names_after_workflow : dom globals_after_workflow ⊆ module_names.
Proof. apply (bool_decide_unpack _). vm_compute. exact I. Qed.

Lemma names_after_graph : dom globals_after_graph ⊆ module_names.
Proof. apply (bool_decide_unpack _). vm_compute. exact I. Qed.

Lemma library_call_StateGraph (args : list value) (r : exn + value) :
  library_call (EvCall StateGraph args r).
Proof. left. reflexivity. Qed.

Lemma library_call_method (m : string) (args : list value) (r : exn + value) :
  In m builder_methods -> library_call (EvCall (VBoundMethod 0 m) args r).
Proof. intros Hm. right. exists m. split; [reflexivity | exact Hm]. Qed.

Ltac library_calls :=
  unfold log_after_class, log_after_imports; cbn [app];
  repeat (apply List.Forall_cons;
          [first [ exact I
                 | apply library_call_StateGraph
                 | apply library_call_method; cbn; tauto ] |]);
  apply List.Forall_nil.

(** C7: whatever the library answers and whatever the scope binds,
    evaluation binds no name outside the module's own eleven names, calls
    nothing but the builder constructor and the three methods of the
    builder it created, and leaves in the store at most that builder and
    the graph compiled from it. *)
Theorem evaluation_is_confined (L : Library) (B : scope) :
  dom (globals (run_main L B).1) ⊆ module_names /\
  Forall library_call (log (run_main L B).1) /\
  (store (run_main L B).1 = [] \/
   (exists b, store (run_main L B).1 = [OBuilder b]) \/
   (exists b c, store (run_main L B).1 = [OBuilder b; OCompiled c])).
Proof.
  split.
  - destruct (run_main_globals L B) as [-> | [-> | ->]].
    + exact names_after_class.
    + exact names_after_workflow.
    + exact names_after_graph.
  - rewrite run_main_outcome. explore_outcome; (split; [library_calls |]); eauto.
Qed.

(** ** No exception of the library is handled *)

Create HintDb propagate.

Lemma quiet_snoc (lg : list event) (ev : event) :
  quiet lg -> ~ failed_call ev -> quiet (lg ++ [ev]).
Proof.
  intros Hq Hev. unfold quiet. apply Forall_app. split; [exact Hq |].
  constructor; [exact Hev | constructor].
Qed.

(** A computation that never writes to the log handles nothing and hides
    nothing. *)
Lemma silent_propagating {A} (m : M A) :
  (forall s, log (m s).1 = log s) -> propagating m.
Proof.
  intros Hlog s Hq. specialize (Hlog s).
  destruct (m s) as [s' [e | a]]; cbn in Hlog; rewrite Hlog; auto.
Qed.

Lemma propagating_ret {A} (a : A) : propagating (ret a).
Proof. apply silent_propagating. reflexivity. Qed.

Lemma propagating_raise {A} (e : exn) : propagating (@raise A e).
Proof. apply silent_propagating. reflexivity. Qed.

Lemma propagating_bind {A B} (m : M A) (k : A -> M B) :
  propagating m -> (forall a, propagating (k a)) -> propagating (bind m k).
Proof.
  intros Hm Hk s Hq. unfold bind. specialize (Hm s Hq).
  destruct (m s) as [s' [e | a]]; [exact Hm |].
  apply Hk. exact Hm.
Qed.

Lemma propagating_load_name (B : scope) (x : string) : propagating (load_name B x).
Proof.
  apply silent_propagating. intros s. unfold load_name.
  destruct (globals s !! x); [reflexivity |]. destruct (B x); reflexivity.
Qed.

Lemma propagating_subscript (base : value) (args : list value) :
  propagating (subscript base args).
Proof. apply propagating_ret. Qed.

Lemma propagating_store_name (x : string) (v : value) : propagating (store_name x v).
Proof. apply silent_propagating. reflexivity. Qed.

Lemma propagating_get_attr (v : value) (attr : string) : propagating (get_attr v attr).
Proof.
  apply silent_propagating. intros s. unfold get_attr, bind, read_object.
  destruct v; try reflexivity.
  destruct (store s !! l) as [[b | c] |]; try reflexivity.
  destruct (existsb (is_name attr) builder_methods); reflexivity.
Qed.

Lemma propagating_import_from (module : string) (names : list string) :
  propagating (import_from module names).
Proof.
  intros s Hq. unfold import_from. cbn. apply quiet_snoc; [exact Hq |].
  intros [].
Qed.

Lemma propagating_emit_class (name : string) : propagating (emit (EvClass name)).
Proof.
  intros s Hq. unfold emit. cbn. apply quiet_snoc; [exact Hq |]. intros [].
Qed.

(** Dispatching a call never raises by itself and never writes to the log:
    the outcome of the library is handed back as a value. *)
Lemma dispatch_outcome (L : Library) (callee : value) (args : list value) (s : state) :
  exists s' r, dispatch L callee args s = (s', inr r) /\ log s' = log s.
Proof.
  unfold dispatch, call_builder_method, bind, ret, alloc, read_object, write_object.
  destruct callee; try (eexists _, _; split; reflexivity).
  - destruct (is_name module "langgraph.graph" && is_name name "StateGraph");
      [destruct (lib_StateGraph L args) |]; eexists _, _; split; reflexivity.
  - destruct (store s !! l) as [[b | c] |];
      try (eexists _, _; split; reflexivity).
    destruct (is_name attr "add_node");
      [destruct (lib_add_node L b args); eexists _, _; split; reflexivity |].
    destruct (is_name attr "add_edge");
      [destruct (lib_add_edge L b args); eexists _, _; split; reflexivity |].
    destruct (is_name attr "compile");
      [destruct (lib_compile L b args) |]; eexists _, _; split; reflexivity.
Qed.

(** A call raises exactly the exception it has just logged. *)
Lemma propagating_call (L : Library) (callee : value) (args : list value) :
  propagating (call L callee args).
Proof.
  intros s Hq. unfold call, bind.
  destruct (dispatch_outcome L callee args s) as (s' & r & -> & Hlog).
  unfold emit. cbn. rewrite Hlog. destruct r as [e | v]; cbn.
  - right. exists (log s), callee, args. split; [reflexivity | exact Hq].
  - apply quiet_snoc; [exact Hq |]. intros [].
Qed.

#[local] Hint Resolve propagating_ret propagating_load_name propagating_subscript
  propagating_store_name propagating_get_attr propagating_import_from
  propagating_emit_class propagating_call : propagate.

Ltac propagate :=
  repeat match goal with
         | |- propagating (bind _ _) => apply propagating_bind; [| intros ?]
         end;
  auto with propagate.

Lemma propagating_main (L : Library) (B : scope) : propagating (main L B).
Proof.
  unfold main, imports, add_nodes, define_flow.
  repeat match goal with
         | |- propagating (bind _ _) => apply propagating_bind; [| intros _]
         end.
  - unfold import_typing. propagate.
  - unfold import_messages. propagate.
  - unfold import_graph. propagate.
  - unfold import_add_messages. propagate.
  - unfold class_AgentState. propagate.
  - unfold assign_workflow. propagate.
  - unfold add_node_retrieve. propagate.
  - unfold add_node_generate. propagate.
  - unfold add_edge_start_retrieve. propagate.
  - unfold add_edge_retrieve_generate. propagate.
  - unfold add_edge_generate_end. propagate.
  - unfold assign_graph. propagate.
Qed.

(** C6: no statement of the module handles an exception.  If any call
    the module makes (builder construction, node registration, edge
    registration, compile) is answered by an exception, that exception is
    the result of the whole evaluation and the failed call is the last
    operation performed. *)
Theorem library_errors_propagate (L : Library) (B : scope)
        (callee : value) (args : list value) (e : exn) :
  In (EvCall callee args (inl e)) (log (run_main L B).1) ->
  (run_main L B).2 = inl e /\
  last (log (run_main L B).1) = Some (EvCall callee args (inl e)).
Proof.
  intros Hin. unfold run_main in *.
  pose proof (propagating_main L B init_state) as Hp.
  assert (Hq0 : quiet (log init_state)) by constructor.
  specialize (Hp Hq0).
  assert (Hnq : ~ quiet (log (main L B init_state).1)).
  { intros Hq. unfold quiet in Hq. rewrite List.Forall_forall in Hq.
    apply (Hq _ Hin). exact I. }
  destruct (main L B init_state) as [s' [e' | []]]; cbn in *.
  - destruct Hp as [Hq | (lg & c & a & Hlog & Hq)]; [contradiction |].
    rewrite Hlog in Hin |- *. apply in_app_or in Hin.
    destruct Hin as [Hin | [Heq | []]].
    + exfalso. unfold quiet in Hq. rewrite List.Forall_forall in Hq.
      apply (Hq _ Hin). exact I.
    + injection Heq as -> -> ->. split; [reflexivity |]. apply last_snoc.
  - contradiction.
Qed.

Lemma library_errors_propagate_witness :
  In (EvCall (VBoundMethod 0 "compile") [] (inl (LibraryError "compile")))
     (log (run_main failing_compile completed).1) /\
  (run_main failing_compile completed).2 = inl (LibraryError "compile") /\
  last (log (run_main failing_compile completed).1)
    = Some (EvCall (VBoundMethod 0 "compile") [] (inl (LibraryError "compile"))).
Proof.
  assert (Hin : In (EvCall (VBoundMethod 0 "compile") []
                           (inl (LibraryError "compile")))
                   (log (run_main failing_compile completed).1)).
  { vm_compute. do 11 right. left. reflexivity. }
  split; [exact Hin |].
  exact (library_errors_propagate failing_compile completed _ _ _ Hin).
Defined.

(** * Further properties of the module *)

(** ** Failing part of the way *)

(** X2: when the first callback is supplied and the second is not, the
    first registration goes through and evaluation then stops at the
    reference to [generate_node]: the builder is the one the first
    add_node left, one registration and no connection have been made, and
    [graph] is unbound. *)
Theorem second_callback_missing (L : Library) (B : scope) (f : value)
        (b0 b1 : builder) :
  B "retrieve_node" = Some f ->
  B "generate_node" = None ->
  lib_StateGraph L [AgentState] = inr b0 ->
  lib_add_node L b0 [VStr "retrieve"; f] = inr b1 ->
  (run_main L B).2 = inl (NameError "generate_node") /\
  store (run_main L B).1 = [OBuilder b1] /\
  workflow_builder (run_main L B).1 = Some b1 /\
  registered "add_node" (log (run_main L B).1) = [[VStr "retrieve"; f]] /\
  registered "add_edge" (log (run_main L B).1) = [] /\
  globals (run_main L B).1 !! "graph" = None.
Proof.
  intros Hf Hg Hb0 Hb1. rewrite run_main_outcome.
  unfold outcome, outcome_add_nodes, method_step.
  rewrite Hb0, Hf, Hb1, Hg. red_leaf. repeat split.
Qed.

Lemma second_callback_missing_witness :
  only_retrieve "retrieve_node" = Some retrieve_fn /\
  only_retrieve "generate_node" = None /\
  lib_StateGraph spec_lib [AgentState] = inr (Builder AgentState [] []) /\
  lib_add_node spec_lib (Builder AgentState [] []) [VStr "retrieve"; retrieve_fn]
    = inr (Builder AgentState [("retrieve", retrieve_fn)] []) /\
  (run_main spec_lib only_retrieve).2 = inl (NameError "generate_node") /\
  store (run_main spec_lib only_retrieve).1
    = [OBuilder (Builder AgentState [("retrieve", retrieve_fn)] [])] /\
  workflow_builder (run_main spec_lib only_retrieve).1
    = Some (Builder AgentState [("retrieve", retrieve_fn)] []) /\
  registered "add_node" (log (run_main spec_lib only_retrieve).1)
    = [[VStr "retrieve"; retrieve_fn]] /\
  registered "add_edge" (log (run_main spec_lib only_retrieve).1) = [] /\
  globals (run_main spec_lib only_retrieve).1 !! "graph" = None.
Proof.
  do 4 (split; [reflexivity |]).
  apply (second_callback_missing spec_lib only_retrieve retrieve_fn
           (Builder AgentState [] [])
           (Builder AgentState [("retrieve", retrieve_fn)] []));
    reflexivity.
Defined.

(** X3: when the builder constructor raises, its exception is the result
    of the evaluation, neither [workflow] nor [graph] is bound, the store
    is empty, and the class statement before it has taken effect. *)
Theorem constructor_failure_binds_nothing (L : Library) (B : scope) (e : exn) :
  lib_StateGraph L [AgentState] = inl e ->
  (run_main L B).2 = inl e /\
  globals (run_main L B).1 !! "workflow" = None /\
  globals (run_main L B).1 !! "graph" = None /\
  store (run_main L B).1 = [] /\
  globals (run_main L B).1 !! "AgentState" = Some AgentState.
Proof.
  intros He. rewrite run_main_outcome. unfold outcome. rewrite He.
  red_leaf. repeat split.
Qed.

Lemma constructor_failure_binds_nothing_witness :
  lib_StateGraph failing_constructor [AgentState] = inl (LibraryError "StateGraph") /\
  (run_main failing_constructor completed).2 = inl (LibraryError "StateGraph") /\
  globals (run_main failing_constructor completed).1 !! "workflow" = None /\
  globals (run_main failing_constructor completed).1 !! "graph" = None /\
  store (run_main failing_constructor completed).1 = [] /\
  globals (run_main failing_constructor completed).1 !! "AgentState" = Some AgentState.
Proof.
  split; [reflexivity |].
  apply (constructor_failure_binds_nothing failing_constructor completed).
  reflexivity.
Defined.

(** ** When evaluation ends normally *)

(** X4: evaluation ends normally exactly when both callbacks are bound
    and the library accepts the seven calls, each made on the builder as
    the call before it left it; in that case the store holds that
    builder, as the last registration left it, and the graph compiled
    from it, and [workflow] still names the builder. *)
Theorem normal_termination_iff_accepted (L : Library) (B : scope) :
  ((run_main L B).2 = inr tt <->
   exists f g b c,
     B "retrieve_node" = Some f /\
     B "generate_node" = Some g /\
     accepts L f g b c) /\
  (forall f g b c,
     B "retrieve_node" = Some f ->
     B "generate_node" = Some g ->
     accepts L f g b c ->
     store (run_main L B).1 = [OBuilder b; OCompiled c] /\
     workflow_builder (run_main L B).1 = Some b).
Proof.
  split; [split |].
  - apply normal_run_accepted.
  - intros (f & g & b & c & Hf & Hg & Hacc).
    rewrite (accepted_run L B f g b c Hf Hg Hacc). reflexivity.
  - intros f g b c Hf Hg Hacc.
    rewrite (accepted_run L B f g b c Hf Hg Hacc). split; reflexivity.
Qed.

(** ** How evaluation can fail *)

(** X5: the only exceptions evaluation can end with are the NameError of
    one of the two free names and an exception with which the library
    answered the last call made; in particular no lookup of a name the
    module binds itself, no attribute access and no call fails on the
    module's side. *)
Theorem failure_is_free_name_or_library (L : Library) (B : scope) (e : exn) :
  (run_main L B).2 = inl e ->
  (e = NameError "retrieve_node" /\ B "retrieve_node" = None) \/
  (e = NameError "generate_node" /\ B "generate_node" = None) \/
  exists callee args,
    last (log (run_main L B).1) = Some (EvCall callee args (inl e)) /\
    library_call (EvCall callee args (inl e)).
Proof.
  rewrite run_main_outcome. explore_outcome; intros [= <-]; auto;
    right; right; eexists _, _;
    (split; [reflexivity |]);
    first [ apply library_call_StateGraph
          | apply library_call_method; cbn; tauto ].
Qed.

Lemma failure_is_free_name_or_library_witness :
  (run_main failing_compile completed).2 = inl (LibraryError "compile") /\
  ((LibraryError "compile" = NameError "retrieve_node" /\
    completed "retrieve_node" = None) \/
   (LibraryError "compile" = NameError "generate_node" /\
    completed "generate_node" = None) \/
   exists callee args,
     last (log (run_main failing_compile completed).1)
       = Some (EvCall callee args (inl (LibraryError "compile"))) /\
     library_call (EvCall callee args (inl (LibraryError "compile")))).
Proof.
  assert (Hr : (run_main failing_compile completed).2
               = inl (LibraryError "compile")) by (vm_compute; reflexivity).
  split; [exact Hr |].
  exact (failure_is_free_name_or_library failing_compile completed _ Hr).
Defined.

(** ** What a client of the module finds bound *)



Lemma workflow_unbound_after_class : ~ is_Some (globals_after_class !! "workflow").
Proof. intros [v Hv]. vm_compute in Hv. discriminate Hv. Qed.


(** X7: [workflow] is bound exactly when the builder constructor returned
    normally, whatever happens afterwards, and it then names the builder
    at the head of the store. *)
Theorem workflow_bound_iff_constructed (L : Library) (B : scope) :
  (is_Some (globals (run_main L B).1 !! "workflow") <->
   exists b0, lib_StateGraph L [AgentState] = inr b0) /\
  (is_Some (globals (run_main L B).1 !! "workflow") ->
   exists b, workflow_builder (run_main L B).1 = Some b /\
             head (store (run_main L B).1) = Some (OBuilder b)).
Proof.
  rewrite run_main_outcome. unfold outcome.
  destruct (lib_StateGraph L [AgentState]) as [e | b0] eqn:H0.
  - red_leaf. split; [split |].
    + intros H. exfalso. revert H. apply workflow_unbound_after_class.
    + intros [b Hb]. discriminate Hb.
    + intros H. exfalso. revert H. apply workflow_unbound_after_class.
  - split; [split; [intros _; eexists; reflexivity | intros _] |].
    + explore_outcome; eexists; reflexivity.
    + intros _. explore_outcome; eexists; split; reflexivity.
Qed.
